(** * MPAS simulation resource estimation: the notebook's calculator, verified

    Source: [mpas_simulation_resource_estimation.ipynb].  The notebook is a
    sequence of cells run over one module namespace.  It defines
    - [calculate_core_hours_per_time_step_per_grid_point] (cell 2),
    - the dictionary [mesh_dict] (cell 2),
    - [calculate_core_hours] (cell 3),
    - the storage expressions [storage_2d], [storage_3d] (cell 4).

    Numbers.  A Python number is an [int] or a [float]; both are embedded
    with their exact rational value, so [*], [+] and [/] below are the exact
    operations and the rounding of binary64 is not part of this model
    (infinities and NaN do not occur: Python raises on a zero divisor).
    The one place where the printed double matters, the documented example,
    is also evaluated in binary64 (module [Binary64]). *)

From Stdlib Require Import ZArith QArith Qabs.
From Stdlib Require Import PrimFloat Uint63.
From stdpp Require Import gmap strings list.

Set Warnings "-inexact-float".
Local Open Scope Z_scope.

(** ** Python numbers *)

Inductive number :=
  | Int (n : Z)
  | Float (x : Q).

(** The rational value of a number ([float(n)] for an [int], exactly). *)
Definition val (a : number) : Q :=
  match a with
  | Int n => inject_Z n
  | Float x => x
  end.

(** ** Exceptions and results *)

Inductive exception :=
  | ZeroDivisionError
  | NameError (name : string)
  | KeyError (key : string)
  | IndexError
  | TypeError.

Inductive result (A : Type) :=
  | Ok (a : A)
  | Raise (e : exception).
Arguments Ok {A} a.
Arguments Raise {A} e.

Global Instance result_ret : MRet result := λ A a, Ok a.
Global Instance result_bind : MBind result := λ A B k r,
  match r with
  | Ok a => k a
  | Raise e => Raise e
  end.

Definition raises {A} (r : result A) : Prop :=
  match r with
  | Raise _ => True
  | Ok _ => False
  end.

(** ** Arithmetic *)

(** [a * b]: an [int] when both operands are, a [float] otherwise. *)
Definition mul (a b : number) : number :=
  match a, b with
  | Int m, Int n => Int (m * n)
  | _, _ => Float (val a * val b)
  end.

(** [a + b]. *)
Definition add (a b : number) : number :=
  match a, b with
  | Int m, Int n => Int (m + n)
  | _, _ => Float (val a + val b)
  end.

(** [a / b]: true division, always a [float]; a zero divisor ([0], [0.0])
    raises [ZeroDivisionError]. *)
Definition truediv (a b : number) : result number :=
  if Qeq_bool (val b) 0 then Raise ZeroDivisionError
  else Ok (Float (val a / val b)).

(** ** The module namespace *)

(** The values the cells bind to names: numbers, the strings ['3.75km'] and
    the dictionary. *)
Inductive value :=
  | VNum (a : number)
  | VStr (s : string)
  | VDict (d : gmap string (list number)).

Abbreviation namespace := (gmap string value).

(** Reading a global name: [NameError] when it is not bound. *)
Definition load (g : namespace) (name : string) : result value :=
  match g !! name with
  | Some v => Ok v
  | None => Raise (NameError name)
  end.

(** A value used as an operand of the arithmetic of this notebook.  The
    cells bind the names read this way to numbers only; for a string or a
    dictionary the arithmetic they enter ends in [TypeError]. *)
Definition as_num (v : value) : result number :=
  match v with
  | VNum a => Ok a
  | _ => Raise TypeError
  end.

Definition load_num (g : namespace) (name : string) : result number :=
  v ← load g name; as_num v.

(** ** Cell 2: the efficiency metric *)

(** The body reads [grid_columns] and [vertical_levels], which are not
    parameters: they are looked up in the module namespace [g] at call time,
    after the first division.  The parameters [num_grid_columns] and
    [num_vertical_levels] are not read. *)
Definition calculate_core_hours_per_time_step_per_grid_point (g : namespace)
    (total_core_hours_used time_step_seconds num_grid_columns
     num_vertical_levels simulation_days : number) : result number :=
  let total_seconds := mul (mul simulation_days (Int 24)) (Int 3600) in
  total_time_steps ← truediv total_seconds time_step_seconds;
  grid_columns ← load_num g "grid_columns";
  vertical_levels ← load_num g "vertical_levels";
  let total_grid_points := mul grid_columns vertical_levels in
  truediv total_core_hours_used (mul total_time_steps total_grid_points).

(** The dictionary literal bound to [mesh_dict]: mesh name to
    [[grid spacing (km), number of horizontal grid columns]].  The keys of
    the literal are pairwise distinct. *)
Definition mesh_items : list (string * list number) :=
  [ ("3km", [Int 3; Int 65536002]);
    ("3.75km", [Float (375 # 100); Int 41943042]);
    ("7.5km", [Float (75 # 10); Int 10485762]);
    ("15km", [Int 15; Int 2621442]);
    ("30km", [Int 30; Int 655362]);
    ("120km", [Int 120; Int 40962]);
    ("15-3km-ell", [Int 3; Int 8060930]);
    ("15-3km-cir", [Int 3; Int 6488066]) ].

Definition mesh_dict : gmap string (list number) := list_to_map mesh_items.

Definition mesh_keys : list string := mesh_items.*1.

(** [d[k]] on a dictionary: [KeyError] for an absent key. *)
Definition getitem (d : gmap string (list number)) (k : string)
    : result (list number) :=
  match d !! k with
  | Some v => Ok v
  | None => Raise (KeyError k)
  end.

(** [l[i]] on a list, for the non-negative indices the notebook uses. *)
Definition index (l : list number) (i : nat) : result number :=
  match l !! i with
  | Some a => Ok a
  | None => Raise IndexError
  end.

Definition as_dict (v : value) : result (gmap string (list number)) :=
  match v with
  | VDict d => Ok d
  | _ => Raise TypeError
  end.

(** The key of a subscript; the cells only ever subscript with a string. *)
Definition as_str (v : value) : result string :=
  match v with
  | VStr s => Ok s
  | _ => Raise TypeError
  end.

(** [v[key]] *)
Definition subscript (v key : value) : result (list number) :=
  d ← as_dict v; k ← as_str key; getitem d k.

(** [mesh_dict[key][i]]: the name [mesh_dict] is looked up, then the key
    expression is evaluated, then the two subscripts are taken. *)
Definition mesh_dict_item (key : namespace → result value) (i : nat)
    (g : namespace) : result number :=
  v ← load g "mesh_dict"; kv ← key g; l ← subscript v kv; index l i.

(** ** Cell 3: total core-hours *)

Definition calculate_core_hours
    (time_step_seconds num_grid_columns num_vertical_levels simulation_days
     core_hours_per_time_step_per_grid_point : number) : result number :=
  let total_seconds := mul (mul simulation_days (Int 24)) (Int 3600) in
  total_time_steps ← truediv total_seconds time_step_seconds;
  let total_grid_points := mul num_grid_columns num_vertical_levels in
  let total_core_hours :=
    mul (mul total_time_steps total_grid_points)
        core_hours_per_time_step_per_grid_point in
  mret total_core_hours.

(** ** Cell 4: storage *)

(** The literal [1.25e-13] (terabytes per bit). *)
Definition tb_per_bit : number := Float (125 # 1000000000000000).

Definition storage_2d
    (nvars_2d grid_columns simulation_length outputs_per_day_2d : number)
    : number :=
  mul (mul (mul (mul nvars_2d grid_columns) simulation_length)
           outputs_per_day_2d) (Int 32).

Definition storage_3d
    (nvars_3d grid_columns vertical_levels simulation_length
     outputs_per_day_3d : number) : number :=
  mul (mul (mul (mul (mul nvars_3d grid_columns) vertical_levels)
                simulation_length) outputs_per_day_3d) (Int 32).

(** The three quantities the cell reports, before [round(_, 2)]:
    [storage_2d * 1.25e-13], [storage_3d * 1.25e-13] and their sum. *)
Record storage_report := {
  storage_2d_TB : number;
  storage_3d_TB : number;
  total_storage_TB : number
}.

Definition report (s2 s3 : number) : storage_report :=
  {| storage_2d_TB := mul s2 tb_per_bit;
     storage_3d_TB := mul s3 tb_per_bit;
     total_storage_TB := add (mul s2 tb_per_bit) (mul s3 tb_per_bit) |}.

(** The cell's computation with its seven inputs as parameters. *)
Definition storage_estimate
    (nvars_2d nvars_3d outputs_per_day_2d outputs_per_day_3d
     grid_columns vertical_levels simulation_length : number)
    : storage_report :=
  report
    (storage_2d nvars_2d grid_columns simulation_length outputs_per_day_2d)
    (storage_3d nvars_3d grid_columns vertical_levels simulation_length
                outputs_per_day_3d).

(** ** Running cells

    A cell is a block of statements run against the module namespace.  When a
    statement raises, the cell stops and the bindings made so far stay (the
    kernel keeps the namespace).  [print] calls and the [def] statements
    themselves (binding the function names) are left out: the functions are
    the definitions above. *)

Definition cell (A : Type) : Type := namespace → namespace * result A.

Global Instance cell_ret : MRet cell := λ A a g, (g, Ok a).
Global Instance cell_bind : MBind cell := λ A B k c g,
  match c g with
  | (g', Ok a) => k a g'
  | (g', Raise e) => (g', Raise e)
  end.

(** [name = v] *)
Definition assign (name : string) (v : value) : cell unit :=
  λ g, (<[name := v]> g, Ok tt).

(** An expression that only reads the namespace. *)
Definition expr {A} (e : namespace → result A) : cell A :=
  λ g, (g, e g).

Definition cell2 : cell unit :=
  assign "mesh_dict" (VDict mesh_dict);;
  assign "dx" (VStr "3.75km");;
  assign "total_core_hours_used" (VNum (Int 236000));;
  assign "time_step" (VNum (Int 20));;
  grid_columns ← expr (mesh_dict_item (λ _, mret (VStr "3.75km")) 1);
  assign "grid_columns" (VNum grid_columns);;
  assign "vertical_levels" (VNum (Int 127));;
  assign "simulation_length" (VNum (Int 4));;
  r ← expr (λ g,
    a1 ← load_num g "total_core_hours_used";
    a2 ← load_num g "time_step";
    a3 ← load_num g "grid_columns";
    a4 ← load_num g "vertical_levels";
    a5 ← load_num g "simulation_length";
    calculate_core_hours_per_time_step_per_grid_point g a1 a2 a3 a4 a5);
  assign "core_hours_per_time_step_per_grid_point_calculated" (VNum r).

(** The literal [2.5639208763925117e-09]. *)
Definition lit_2_5639208763925117e_09 : Q :=
  25639208763925117 # 10000000000000000000000000.

Definition cell3 : cell unit :=
  assign "mesh" (VStr "3.75km");;
  assign "time_step" (VNum (Int 20));;
  dx ← expr (mesh_dict_item (λ g, load g "mesh") 0);
  assign "dx" (VNum dx);;
  grid_columns ← expr (mesh_dict_item (λ g, load g "mesh") 1);
  assign "grid_columns" (VNum grid_columns);;
  assign "vertical_levels" (VNum (Int 127));;
  assign "simulation_length" (VNum (Int 365));;
  assign "core_hours_per_time_step_per_grid_point"
         (VNum (Float lit_2_5639208763925117e_09));;
  r ← expr (λ g,
    a1 ← load_num g "time_step";
    a2 ← load_num g "grid_columns";
    a3 ← load_num g "vertical_levels";
    a4 ← load_num g "simulation_length";
    a5 ← load_num g "core_hours_per_time_step_per_grid_point";
    calculate_core_hours a1 a2 a3 a4 a5);
  assign "total_core_hours" (VNum r).

(** Cell 4 binds [storage_2d] and [storage_3d] and reports the terabyte
    figures. *)
Definition cell4 : cell storage_report :=
  assign "nvars_2d" (VNum (Int 15));;
  assign "nvars_3d" (VNum (Int 9));;
  assign "outputs_per_day_2d" (VNum (Int 24));;
  assign "outputs_per_day_3d" (VNum (Int 8));;
  s2 ← expr (λ g,
    a ← load_num g "nvars_2d";
    b ← load_num g "grid_columns";
    c ← load_num g "simulation_length";
    d ← load_num g "outputs_per_day_2d";
    mret (storage_2d a b c d));
  assign "storage_2d" (VNum s2);;
  s3 ← expr (λ g,
    a ← load_num g "nvars_3d";
    b ← load_num g "grid_columns";
    c ← load_num g "vertical_levels";
    d ← load_num g "simulation_length";
    e ← load_num g "outputs_per_day_3d";
    mret (storage_3d a b c d e));
  assign "storage_3d" (VNum s3);;
  expr (λ g,
    s2 ← load_num g "storage_2d";
    s3 ← load_num g "storage_3d";
    mret (report s2 s3)).

(** The cells that touch the namespace, run in any order, any number of
    times, from a fresh kernel. *)
Inductive cell_id := Cell2 | Cell3 | Cell4.

Definition run (c : cell_id) (g : namespace) : namespace :=
  match c with
  | Cell2 => fst (cell2 g)
  | Cell3 => fst (cell3 g)
  | Cell4 => fst (cell4 g)
  end.

Inductive reachable : namespace → Prop :=
  | reachable_fresh : reachable ∅
  | reachable_run c g : reachable g → reachable (run c g).

(** The namespace once cell 2 has run in a fresh kernel:
    [grid_columns = 41943042], [vertical_levels = 127]. *)
Definition after_cell2 : namespace := run Cell2 ∅.

(** ** The documented example in binary64

    The body of the efficiency function evaluated as CPython does for [int]
    arguments below [2^53]: the [int] products are exact, [int / int] and
    [int / float] divide the exactly converted operands and round once,
    [float * int] converts the [int] exactly.  The first two arguments stand
    for the globals the body reads.  Zero divisors are outside this
    evaluation. *)
Module Binary64.

Definition of_int (n : Z) : float := PrimFloat.of_uint63 (Uint63.of_Z n).

Definition calculate_core_hours_per_time_step_per_grid_point
    (grid_columns vertical_levels : Z)
    (total_core_hours_used time_step_seconds num_grid_columns
     num_vertical_levels simulation_days : Z) : float :=
  let total_seconds := simulation_days * 24 * 3600 in
  let total_time_steps :=
    PrimFloat.div (of_int total_seconds) (of_int time_step_seconds) in
  let total_grid_points := grid_columns * vertical_levels in
  PrimFloat.div (of_int total_core_hours_used)
                (PrimFloat.mul total_time_steps (of_int total_grid_points)).

End Binary64.

(** ** Notions used by the statements *)

(** The outcome of a call with a doubled argument, against the outcome of
    the original call: twice the number, or the same exception. *)
Definition doubled (r r2 : result number) : Prop :=
  match r, r2 with
  | Ok a, Ok b => (val b == 2 * val a)%Q
  | Raise e, Raise e2 => e = e2
  | _, _ => False
  end.

(** A table entry: a two-element list, a positive spacing followed by a
    positive [int] column count. *)
Definition valid_entry (l : list number) : Prop :=
  ∃ dx n, l = [dx; Int n] ∧ (0 < val dx)%Q ∧ 0 < n.

(** A cell that leaves the binding of a name as it found it. *)
Definition keeps (name : string) {A} (c : cell A) : Prop :=
  ∀ g, fst (c g) !! name = g !! name.

(** The grid globals as the cells leave them: [grid_columns],
    [vertical_levels] and [simulation_length] are assigned together, from
    the 3.75 km entry and the literals of cells 2 and 3. *)
Definition grid_state (g : namespace) : Prop :=
  (g !! "grid_columns" = None ∧ g !! "vertical_levels" = None
   ∧ g !! "simulation_length" = None)
  ∨ (g !! "grid_columns" = Some (VNum (Int 41943042))
     ∧ g !! "vertical_levels" = Some (VNum (Int 127))
     ∧ (g !! "simulation_length" = Some (VNum (Int 4))
        ∨ g !! "simulation_length" = Some (VNum (Int 365)))).

(** ** Facts about the arithmetic *)

Local Open Scope Q_scope.

(** Steps of the [result] monad only; the arithmetic stays folded. *)
Ltac step := cbn [mbind mret result_bind result_ret].

Lemma val_mul (a b : number) : val (mul a b) == val a * val b.
Proof.
  destruct a as [m|x], b as [n|y]; cbn [mul val];
    rewrite ?inject_Z_mult; reflexivity.
Qed.

Lemma val_add (a b : number) : val (add a b) == val a + val b.
Proof.
  destruct a as [m|x], b as [n|y]; cbn [add val];
    rewrite ?inject_Z_plus; reflexivity.
Qed.

Lemma truediv_zero (a b : number) :
  val b == 0 → truediv a b = Raise ZeroDivisionError.
Proof.
  intros Hb. unfold truediv.
  apply Qeq_bool_iff in Hb. now rewrite Hb.
Qed.

Lemma truediv_nonzero (a b : number) :
  ¬ val b == 0 → truediv a b = Ok (Float (val a / val b)).
Proof.
  intros Hb. unfold truediv.
  destruct (Qeq_bool (val b) 0) eqn:E; [|reflexivity].
  apply Qeq_bool_iff in E. contradiction.
Qed.

Lemma truediv_inv (a b r : number) :
  truediv a b = Ok r → ¬ val b == 0 ∧ r = Float (val a / val b).
Proof.
  unfold truediv. destruct (Qeq_bool (val b) 0) eqn:E; [discriminate|].
  intros [= <-]. split; [|reflexivity].
  intros Hb. apply Qeq_bool_iff in Hb. congruence.
Qed.

(** [simulation_days * 24 * 3600] *)
Lemma val_total_seconds (d : number) :
  val (mul (mul d (Int 24)) (Int 3600)) == val d * 86400.
Proof. rewrite !val_mul. simpl. field. Qed.

(** Push [val] through products and sums. *)
Ltac vals :=
  cbn [val]; rewrite ?val_total_seconds;
  repeat progress
    (rewrite ?val_mul, ?val_add; cbn [val]; rewrite ?val_total_seconds).

Lemma Qmult_neq0 (a b : Q) : ¬ a == 0 → ¬ b == 0 → ¬ a * b == 0.
Proof. intros Ha Hb E. apply Qmult_integral in E as [E|E]; auto. Qed.

Lemma Qdiv_neq0 (a b : Q) : ¬ a == 0 → ¬ b == 0 → ¬ a / b == 0.
Proof.
  intros Ha Hb E. apply Ha.
  rewrite <- (Qmult_div_r a b Hb), E. ring.
Qed.

Lemma Qpos_neq0 (a : Q) : 0 < a → ¬ a == 0.
Proof. intros Ha E. rewrite E in Ha. discriminate. Qed.

Lemma seconds_per_day_neq0 : ¬ 86400 == 0.
Proof. discriminate. Qed.

Create HintDb nonzero.
#[local] Hint Resolve Qdiv_neq0 Qmult_neq0 Qpos_neq0 seconds_per_day_neq0
  : nonzero.

Lemma load_num_bound (g : namespace) (name : string) (a : number) :
  g !! name = Some (VNum a) → load_num g name = Ok a.
Proof. intros E. unfold load_num, load. now rewrite E. Qed.

(** ** What the two functions return *)

(** [calculate_core_hours] returns whenever the time step is not zero. *)
Lemma calculate_core_hours_returns (dt nc nv d c : number) :
  ¬ val dt == 0 →
  ∃ r, calculate_core_hours dt nc nv d c = Ok r
       ∧ val r == (val d * 86400 / val dt) * (val nc * val nv) * val c.
Proof.
  intros Hdt. unfold calculate_core_hours.
  rewrite (truediv_nonzero _ _ Hdt). step.
  eexists. split; [reflexivity|].
  vals. field. exact Hdt.
Qed.

(** The efficiency function returns when the time step, the simulation
    length and the two globals it reads are not zero; the grid-point count
    in its result is the product of the globals. *)
Lemma efficiency_returns (g : namespace) (H dt nc nv d G V : number) :
  g !! "grid_columns" = Some (VNum G) →
  g !! "vertical_levels" = Some (VNum V) →
  ¬ val dt == 0 → ¬ val d == 0 → ¬ val G == 0 → ¬ val V == 0 →
  ∃ r, calculate_core_hours_per_time_step_per_grid_point g H dt nc nv d = Ok r
       ∧ val r == val H / ((val d * 86400 / val dt) * (val G * val V)).
Proof.
  intros HG HV Hdt Hd HG0 HV0.
  unfold calculate_core_hours_per_time_step_per_grid_point.
  rewrite (truediv_nonzero _ _ Hdt). step.
  rewrite (load_num_bound _ _ _ HG), (load_num_bound _ _ _ HV). step.
  set (steps := Float (val (mul (mul d (Int 24)) (Int 3600)) / val dt)).
  assert (Hnz : ¬ val (mul steps (mul G V)) == 0).
  { subst steps. vals. auto 6 with nonzero. }
  rewrite (truediv_nonzero _ _ Hnz).
  eexists. split; [reflexivity|].
  subst steps. vals. field. auto.
Qed.

(** When the globals hold the values passed as arguments, the two functions
    are inverse to each other. *)
Lemma round_trip_when_globals_agree (g : namespace) (H dt nc nv d : number) :
  g !! "grid_columns" = Some (VNum nc) →
  g !! "vertical_levels" = Some (VNum nv) →
  0 < val dt → 0 < val nc → 0 < val nv → 0 < val d →
  ∃ e h,
    calculate_core_hours_per_time_step_per_grid_point g H dt nc nv d = Ok e
    ∧ calculate_core_hours dt nc nv d e = Ok h
    ∧ val h == val H.
Proof.
  intros Hc Hv Hdt Hnc Hnv Hd.
  destruct (efficiency_returns g H dt nc nv d nc nv Hc Hv)
    as (e & He & Hev); auto with nonzero.
  destruct (calculate_core_hours_returns dt nc nv d e) as (h & Hh & Hhv);
    auto with nonzero.
  exists e, h. repeat split; try assumption.
  rewrite Hhv, Hev. field. auto with nonzero.
Qed.

(** ** Running a cell statement by statement *)

Lemma run_assign {A} (name : string) (v : value) (k : unit → cell A)
    (g : namespace) :
  (assign name v ≫= k) g = k tt (<[name := v]> g).
Proof. reflexivity. Qed.

Lemma run_expr {A B} (e : namespace → result A) (k : A → cell B)
    (g : namespace) :
  (expr e ≫= k) g
  = match e g with
    | Ok a => k a g
    | Raise x => (g, Raise x)
    end.
Proof. unfold expr, mbind, cell_bind. destruct (e g); reflexivity. Qed.

Lemma after_cell2_globals :
  after_cell2 !! "grid_columns" = Some (VNum (Int 41943042))
  ∧ after_cell2 !! "vertical_levels" = Some (VNum (Int 127)).
Proof. split; vm_compute; reflexivity. Qed.

(** Cell 4 reports [storage_estimate] at its four literals and the three
    globals it reads. *)
Lemma cell4_reports (g : namespace) (G V L : number) :
  g !! "grid_columns" = Some (VNum G) →
  g !! "vertical_levels" = Some (VNum V) →
  g !! "simulation_length" = Some (VNum L) →
  snd (cell4 g)
  = Ok (storage_estimate (Int 15) (Int 9) (Int 24) (Int 8) G V L).
Proof.
  intros HG HV HL. unfold cell4.
  rewrite !run_assign, run_expr.
  rewrite (load_num_bound _ "nvars_2d" (Int 15)) by (by simplify_map_eq).
  rewrite (load_num_bound _ "grid_columns" G) by (by simplify_map_eq).
  rewrite (load_num_bound _ "simulation_length" L) by (by simplify_map_eq).
  rewrite (load_num_bound _ "outputs_per_day_2d" (Int 24))
    by (by simplify_map_eq).
  step. rewrite run_assign, run_expr.
  rewrite (load_num_bound _ "nvars_3d" (Int 9)) by (by simplify_map_eq).
  rewrite (load_num_bound _ "grid_columns" G) by (by simplify_map_eq).
  rewrite (load_num_bound _ "vertical_levels" V) by (by simplify_map_eq).
  rewrite (load_num_bound _ "simulation_length" L) by (by simplify_map_eq).
  rewrite (load_num_bound _ "outputs_per_day_3d" (Int 8))
    by (by simplify_map_eq).
  step. rewrite run_assign. unfold expr. cbn [snd].
  rewrite (load_num_bound _ "storage_2d" _) by (by simplify_map_eq).
  rewrite (load_num_bound _ "storage_3d" _) by (by simplify_map_eq).
  reflexivity.
Qed.

(** ** The mesh table and the cells *)

Lemma mesh_keys_NoDup : NoDup mesh_keys.
Proof. apply (bool_decide_unpack _). vm_compute. exact I. Qed.

Lemma mesh_dict_lookup (k : string) (v : list number) :
  mesh_dict !! k = Some v ↔ (k, v) ∈ mesh_items.
Proof.
  unfold mesh_dict. symmetry.
  apply elem_of_list_to_map. exact mesh_keys_NoDup.
Qed.

Lemma keeps_assign (name n : string) (v : value) :
  n ≠ name → keeps name (assign n v).
Proof. intros Hn g. cbn. by rewrite lookup_insert_ne. Qed.

Lemma keeps_expr (name : string) {A} (e : namespace → result A) :
  keeps name (expr e).
Proof. intros g. reflexivity. Qed.

Lemma keeps_bind (name : string) {A B} (c : cell A) (k : A → cell B) :
  keeps name c → (∀ a, keeps name (k a)) → keeps name (c ≫= k).
Proof.
  intros Hc Hk g. unfold mbind, cell_bind.
  specialize (Hc g). destruct (c g) as [g1 [a|e]]; cbn [fst] in *.
  - rewrite Hk. exact Hc.
  - exact Hc.
Qed.

Ltac keeps_tac :=
  repeat first
    [ apply keeps_bind; [|intros ?]
    | apply keeps_expr
    | apply keeps_assign; discriminate ].

Lemma cell3_keeps_mesh_dict : keeps "mesh_dict" cell3.
Proof. unfold cell3. keeps_tac. Qed.

Lemma cell4_keeps_mesh_dict : keeps "mesh_dict" cell4.
Proof. unfold cell4. keeps_tac. Qed.

Lemma cell2_binds_mesh_dict (g : namespace) :
  fst (cell2 g) !! "mesh_dict" = Some (VDict mesh_dict).
Proof.
  unfold cell2. rewrite run_assign.
  match goal with
  | |- fst (?c ?g1) !! _ = _ => assert (Hk : keeps "mesh_dict" c) by keeps_tac
  end.
  rewrite Hk. apply lookup_insert_eq.
Qed.

(** ** The claims *)

(** C1.  The claim takes the grid-point count from the arguments
    [num_grid_columns] and [num_vertical_levels]; the code takes it from the
    globals.  After cell 2, a call for the 30 km mesh (655362 columns) returns
    the figure of the 3.75 km mesh, [236000 / (17280 * (41943042 * 127))], and
    not [236000 / (17280 * (655362 * 127))]; in a namespace without the two
    globals the same call raises [NameError]. *)
Theorem efficiency_reads_globals_not_arguments :
  (∃ r,
     calculate_core_hours_per_time_step_per_grid_point after_cell2
       (Int 236000) (Int 20) (Int 655362) (Int 127) (Int 4) = Ok r
     ∧ val r == 236000 / ((4 * 86400 / 20) * (41943042 * 127))
     ∧ ¬ val r == 236000 / ((4 * 86400 / 20) * (655362 * 127)))
  ∧ calculate_core_hours_per_time_step_per_grid_point ∅
      (Int 236000) (Int 20) (Int 655362) (Int 127) (Int 4)
    = Raise (NameError "grid_columns").
Proof.
  split; [|reflexivity].
  eexists. split; [vm_compute; reflexivity|]. split.
  - reflexivity.
  - discriminate.
Qed.

(** C2.  The round trip does not recover [H] when the arguments differ from
    the globals: after cell 2, the efficiency computed for 236000 core-hours
    on the 30 km mesh, fed back with the same arguments, gives
    [236000 * 655362 / 41943042] (about 3687.5) core-hours. *)
Theorem round_trip_breaks_when_arguments_differ_from_globals :
  ∃ e h,
    calculate_core_hours_per_time_step_per_grid_point after_cell2
      (Int 236000) (Int 20) (Int 655362) (Int 127) (Int 4) = Ok e
    ∧ calculate_core_hours (Int 20) (Int 655362) (Int 127) (Int 4) e = Ok h
    ∧ val h == 236000 * 655362 / 41943042
    ∧ val h < 3688.
Proof.
  eexists. eexists. split; [vm_compute; reflexivity|].
  split; [vm_compute; reflexivity|].
  split; reflexivity.
Qed.




(** C4.  The storage estimate is the product of its counts with 32 bits and
    [1.25e-13] terabytes per bit, and the total is the sum of the two terms
    (for every input; no sign condition is needed). *)
Theorem storage_estimate_formula (v2 v3 o2 o3 nc nv d : number) :
  let r := storage_estimate v2 v3 o2 o3 nc nv d in
  val (storage_2d_TB r)
    == val v2 * val nc * val d * val o2 * 32 * (125 # 1000000000000000)
  ∧ val (storage_3d_TB r)
    == val v3 * val nc * val nv * val d * val o3 * 32
       * (125 # 1000000000000000)
  ∧ val (total_storage_TB r)
    == val (storage_2d_TB r) + val (storage_3d_TB r).
Proof.
  unfold storage_estimate, report.
  cbn [storage_2d_TB storage_3d_TB total_storage_TB].
  unfold storage_2d, storage_3d, tb_per_bit.
  repeat split; vals; reflexivity.
Qed.

(** C5.  Subscripting [mesh_dict] with a key outside the literal raises
    [KeyError] for that key, also as [mesh_dict[mesh][i]] in a namespace
    where [mesh] is that key, and no value is produced; subscripting with a
    key of the literal returns the list stored with it. *)
Theorem mesh_lookup (k : string) (g : namespace) :
  g !! "mesh_dict" = Some (VDict mesh_dict) →
  g !! "mesh" = Some (VStr k) →
  (k ∉ mesh_keys →
     getitem mesh_dict k = Raise (KeyError k)
     ∧ ∀ i, mesh_dict_item (λ g, load g "mesh") i g = Raise (KeyError k))
  ∧ (∀ v, (k, v) ∈ mesh_items →
       getitem mesh_dict k = Ok v
       ∧ ∀ i, mesh_dict_item (λ g, load g "mesh") i g = index v i).
Proof.
  intros Hd Hm.
  assert (E : ∀ i, mesh_dict_item (λ g, load g "mesh") i g
                   = l ← getitem mesh_dict k; index l i).
  { intros i. unfold mesh_dict_item, load. rewrite Hd, Hm. reflexivity. }
  split.
  - intros Hk.
    assert (E0 : getitem mesh_dict k = Raise (KeyError k)).
    { unfold getitem, mesh_dict.
      by rewrite (not_elem_of_list_to_map_1 mesh_items k Hk). }
    split; [exact E0|]. intros i. rewrite E, E0. reflexivity.
  - intros v Hv. apply mesh_dict_lookup in Hv.
    assert (E0 : getitem mesh_dict k = Ok v).
    { unfold getitem. by rewrite Hv. }
    split; [exact E0|]. intros i. rewrite E, E0. reflexivity.
Qed.

Lemma mesh_lookup_witness :
  (getitem mesh_dict "1km" = Raise (KeyError "1km")
   ∧ ∀ i, mesh_dict_item (λ g, load g "mesh") i
            (<["mesh" := VStr "1km"]> after_cell2)
          = Raise (KeyError "1km"))
  ∧ (getitem mesh_dict "30km" = Ok [Int 30; Int 655362]
     ∧ ∀ i, mesh_dict_item (λ g, load g "mesh") i
              (<["mesh" := VStr "30km"]> after_cell2)
            = index [Int 30; Int 655362] i).
Proof.
  split.
  - apply (mesh_lookup "1km" (<["mesh" := VStr "1km"]> after_cell2)).
    + vm_compute. reflexivity.
    + vm_compute. reflexivity.
    + apply (bool_decide_unpack _). vm_compute. exact I.
  - apply (mesh_lookup "30km" (<["mesh" := VStr "30km"]> after_cell2)).
    + vm_compute. reflexivity.
    + vm_compute. reflexivity.
    + apply list_elem_of_lookup. exists 4%nat. reflexivity.
Defined.

(** C6.  Each storage term scales with each of its own factors: the 2D term
    with [vars2D], [outputsPerDay2D] and [simulationDays], the 3D term with
    [vars3D], [outputsPerDay3D] and [simulationDays] (so the total scales
    with [simulationDays] too); and a term is zero when its variable count
    or its output frequency is zero. *)
Theorem storage_estimate_linear (k v2 v3 o2 o3 nc nv d : number) :
  let est := storage_estimate in
  let s2 := val (storage_2d_TB (est v2 v3 o2 o3 nc nv d)) in
  let s3 := val (storage_3d_TB (est v2 v3 o2 o3 nc nv d)) in
  (val (storage_2d_TB (est (mul k v2) v3 o2 o3 nc nv d)) == val k * s2
   ∧ val (storage_2d_TB (est v2 v3 (mul k o2) o3 nc nv d)) == val k * s2
   ∧ val (storage_2d_TB (est v2 v3 o2 o3 nc nv (mul k d))) == val k * s2)
  ∧ (val (storage_3d_TB (est v2 (mul k v3) o2 o3 nc nv d)) == val k * s3
     ∧ val (storage_3d_TB (est v2 v3 o2 (mul k o3) nc nv d)) == val k * s3
     ∧ val (storage_3d_TB (est v2 v3 o2 o3 nc nv (mul k d))) == val k * s3)
  ∧ val (total_storage_TB (est v2 v3 o2 o3 nc nv (mul k d)))
    == val k * val (total_storage_TB (est v2 v3 o2 o3 nc nv d))
  ∧ (val v2 == 0 ∨ val o2 == 0 → s2 == 0)
  ∧ (val v3 == 0 ∨ val o3 == 0 → s3 == 0).
Proof.
  cbn zeta. unfold storage_estimate, report.
  cbn [storage_2d_TB storage_3d_TB total_storage_TB].
  unfold storage_2d, storage_3d, tb_per_bit.
  repeat split; vals; try ring.
  - intros [E|E]; rewrite E; ring.
  - intros [E|E]; rewrite E; ring.
Qed.

Lemma storage_estimate_linear_witness :
  let est := storage_estimate in
  val (storage_2d_TB (est (Int 0) (Int 9) (Int 24) (Int 8)
                          (Int 41943042) (Int 127) (Int 365))) == 0
  ∧ val (storage_3d_TB (est (Int 15) (Int 9) (Int 24) (Float 0)
                            (Int 41943042) (Int 127) (Int 365))) == 0.
Proof.
  split.
  - apply (storage_estimate_linear (Int 2) (Int 0) (Int 9) (Int 24) (Int 8)
             (Int 41943042) (Int 127) (Int 365)).
    left. reflexivity.
  - apply (storage_estimate_linear (Int 2) (Int 15) (Int 9) (Int 24) (Float 0)
             (Int 41943042) (Int 127) (Int 365)).
    right. reflexivity.
Defined.



(** C8.  Cell 2, run in a fresh kernel, completes and binds
    [core_hours_per_time_step_per_grid_point_calculated] to the result of the
    documented call; the exact quotient is within [2e-25] of
    [2.5639208763925117e-09], and the binary64 evaluation is that double. *)
Theorem documented_example_efficiency :
  snd (cell2 ∅) = Ok tt
  ∧ ∃ r,
      after_cell2 !! "core_hours_per_time_step_per_grid_point_calculated"
        = Some (VNum r)
      ∧ calculate_core_hours_per_time_step_per_grid_point after_cell2
          (Int 236000) (Int 20) (Int 41943042) (Int 127) (Int 4) = Ok r
      ∧ Qabs (val r - lit_2_5639208763925117e_09)
          < 2 # 10000000000000000000000000
      ∧ Binary64.calculate_core_hours_per_time_step_per_grid_point
          41943042 127 236000 20 41943042 127 4
        = 2.5639208763925117e-09%float.
Proof.
  split; [vm_compute; reflexivity|].
  eexists. split; [vm_compute; reflexivity|].
  split; [vm_compute; reflexivity|].
  split; [reflexivity|].
  vm_compute. reflexivity.
Qed.

(** C9.  Every entry of [mesh_dict] is a positive grid spacing followed by a
    positive integer column count, and in every namespace the cells can
    produce, [mesh_dict] is either not bound yet or bound to that table. *)
Theorem mesh_dict_entries_valid :
  (∀ k v, mesh_dict !! k = Some v → valid_entry v)
  ∧ (∀ g, reachable g →
       ∀ x, g !! "mesh_dict" = Some x → x = VDict mesh_dict).
Proof.
  split.
  - intros k v Hv. apply mesh_dict_lookup in Hv.
    unfold mesh_items in Hv.
    repeat (apply elem_of_cons in Hv as [Hv|Hv];
            [injection Hv as -> ->; eexists _, _; repeat split; reflexivity|]).
    by apply elem_of_nil in Hv.
  - intros g Hg. induction Hg as [|c g Hg IH]; intros x Hx.
    + by rewrite lookup_empty in Hx.
    + destruct c; cbn [run] in Hx.
      * rewrite cell2_binds_mesh_dict in Hx. congruence.
      * rewrite cell3_keeps_mesh_dict in Hx. auto.
      * rewrite cell4_keeps_mesh_dict in Hx. auto.
Qed.

Lemma mesh_dict_entries_valid_witness :
  valid_entry [Float (375 # 100); Int 41943042]
  ∧ run Cell4 (run Cell3 (run Cell2 ∅)) !! "mesh_dict"
    = Some (VDict mesh_dict).
Proof.
  split.
  - apply (proj1 mesh_dict_entries_valid "3.75km"). reflexivity.
  - assert (H : ∃ x, run Cell4 (run Cell3 (run Cell2 ∅)) !! "mesh_dict"
                     = Some x)
      by (eexists; vm_compute; reflexivity).
    destruct H as [x Hx]. rewrite Hx. f_equal.
    apply (proj2 mesh_dict_entries_valid
             (run Cell4 (run Cell3 (run Cell2 ∅)))).
    + repeat constructor.
    + exact Hx.
Defined.

(** C10.  Two calls that agree on [total_core_hours_used],
    [time_step_seconds] and [simulation_days], made in namespaces that agree
    on [grid_columns] and [vertical_levels], give the same outcome, whatever
    [num_grid_columns] and [num_vertical_levels] are in each. *)
Theorem efficiency_independent_of_grid_arguments
    (g g' : namespace) (H dt d nc nv nc' nv' : number) :
  g !! "grid_columns" = g' !! "grid_columns" →
  g !! "vertical_levels" = g' !! "vertical_levels" →
  calculate_core_hours_per_time_step_per_grid_point g H dt nc nv d
  = calculate_core_hours_per_time_step_per_grid_point g' H dt nc' nv' d.
Proof.
  intros Hc Hv.
  unfold calculate_core_hours_per_time_step_per_grid_point, load_num, load.
  now rewrite Hc, Hv.
Qed.

Lemma efficiency_independent_of_grid_arguments_witness :
  calculate_core_hours_per_time_step_per_grid_point after_cell2
    (Int 236000) (Int 20) (Int 41943042) (Int 127) (Int 4)
  = calculate_core_hours_per_time_step_per_grid_point
      (run Cell3 after_cell2)
      (Int 236000) (Int 20) (Int 655362) (Int (-5)) (Int 4).
Proof.
  apply efficiency_independent_of_grid_arguments; reflexivity.
Defined.

(** * Further properties of the notebook's code *)

(** ** Helper facts *)

Lemma Qdiv_pos (a b : Q) : 0 < a → 0 < b → 0 < a / b.
Proof.
  intros Ha Hb. apply Qlt_shift_div_l; [exact Hb|]. now rewrite Qmult_0_l.
Qed.

Lemma Qmult_pos (a b : Q) : 0 < a → 0 < b → 0 < a * b.
Proof. intros Ha Hb. rewrite <- (Qmult_0_l b). now apply Qmult_lt_compat_r. Qed.

Lemma seconds_per_day_pos : 0 < 86400.
Proof. reflexivity. Qed.

Create HintDb positive.
#[local] Hint Resolve Qdiv_pos Qmult_pos seconds_per_day_pos : positive.

Lemma Qmult_nonneg (a b : Q) : 0 <= a → 0 <= b → 0 <= a * b.
Proof. apply Qmult_le_0_compat. Qed.

Lemma load_num_unbound (g : namespace) (name : string) :
  g !! name = None → load_num g name = Raise (NameError name).
Proof. intros E. unfold load_num, load. now rewrite E. Qed.

Lemma mesh_dict_item_table (key : namespace → result value) (i : nat)
    (g : namespace) (k : string) :
  g !! "mesh_dict" = Some (VDict mesh_dict) →
  key g = Ok (VStr k) →
  mesh_dict_item key i g = l ← getitem mesh_dict k; index l i.
Proof.
  intros Hd Hk. unfold mesh_dict_item, load. rewrite Hd, Hk. reflexivity.
Qed.

Lemma mesh_dict_item_unbound (key : namespace → result value) (i : nat)
    (g : namespace) :
  g !! "mesh_dict" = None →
  mesh_dict_item key i g = Raise (NameError "mesh_dict").
Proof.
  intros Hd. unfold mesh_dict_item, load. rewrite Hd. reflexivity.
Qed.

Lemma mesh_3_75km_columns :
  (l ← getitem mesh_dict "3.75km"; index l 1) = Ok (Int 41943042).
Proof. reflexivity. Qed.

Lemma mesh_3_75km_spacing :
  (l ← getitem mesh_dict "3.75km"; index l 0) = Ok (Float (375 # 100)).
Proof. reflexivity. Qed.

(** Lookups through the assignments made so far. *)
Ltac lookups := by simplify_map_eq.

(** The call of the documented example, in any namespace that holds the
    grid of the 3.75 km mesh. *)
Lemma efficiency_example_value (g : namespace) (nc nv : number) :
  g !! "grid_columns" = Some (VNum (Int 41943042)) →
  g !! "vertical_levels" = Some (VNum (Int 127)) →
  calculate_core_hours_per_time_step_per_grid_point g
    (Int 236000) (Int 20) nc nv (Int 4)
  = Ok (Float (4720000 # 1840930445030400)).
Proof.
  intros HG HV. unfold calculate_core_hours_per_time_step_per_grid_point.
  rewrite truediv_nonzero by easy. step.
  rewrite (load_num_bound _ _ _ HG), (load_num_bound _ _ _ HV). step.
  rewrite truediv_nonzero by easy. reflexivity.
Qed.

(** Cell 2, statement by statement, in any namespace. *)
Lemma cell2_runs (g : namespace) :
  cell2 g = (after_cell2 ∪ g, Ok tt).
Proof.
  unfold cell2. rewrite !run_assign, run_expr.
  rewrite (mesh_dict_item_table _ 1 _ "3.75km") by (lookups || reflexivity).
  rewrite mesh_3_75km_columns, !run_assign, run_expr.
  rewrite (load_num_bound _ "total_core_hours_used" (Int 236000)) by lookups.
  rewrite (load_num_bound _ "time_step" (Int 20)) by lookups.
  rewrite (load_num_bound _ "grid_columns" (Int 41943042)) by lookups.
  rewrite (load_num_bound _ "vertical_levels" (Int 127)) by lookups.
  rewrite (load_num_bound _ "simulation_length" (Int 4)) by lookups.
  step. rewrite efficiency_example_value by lookups.
  unfold assign. f_equal.
  rewrite <- (left_id_L ∅ (∪) g) at 1. rewrite !insert_union_l. f_equal.
Qed.

(** Cell 3 where [mesh_dict] is not bound: it stops at the first
    subscript. *)
Lemma cell3_runs_unbound (g : namespace) :
  g !! "mesh_dict" = None →
  cell3 g
  = (<["time_step" := VNum (Int 20)]> (<["mesh" := VStr "3.75km"]> g),
     Raise (NameError "mesh_dict")).
Proof.
  intros Hd. unfold cell3. rewrite !run_assign, run_expr.
  rewrite mesh_dict_item_unbound by lookups. reflexivity.
Qed.

(** Cell 3 where [mesh_dict] holds the table. *)
Lemma cell3_runs_table (g : namespace) :
  g !! "mesh_dict" = Some (VDict mesh_dict) →
  ∃ r,
    cell3 g
    = (<["total_core_hours" := VNum r]>
         (<["core_hours_per_time_step_per_grid_point"
              := VNum (Float lit_2_5639208763925117e_09)]>
            (<["simulation_length" := VNum (Int 365)]>
               (<["vertical_levels" := VNum (Int 127)]>
                  (<["grid_columns" := VNum (Int 41943042)]>
                     (<["dx" := VNum (Float (375 # 100))]>
                        (<["time_step" := VNum (Int 20)]>
                           (<["mesh" := VStr "3.75km"]> g))))))),
       Ok tt)
    ∧ val r == (365 * 86400 / 20) * (41943042 * 127)
               * lit_2_5639208763925117e_09.
Proof.
  intros Hd. unfold cell3. rewrite !run_assign, run_expr.
  rewrite (mesh_dict_item_table _ 0 _ "3.75km")
    by first [lookups | unfold load; by simplify_map_eq].
  rewrite mesh_3_75km_spacing, !run_assign, run_expr.
  rewrite (mesh_dict_item_table _ 1 _ "3.75km")
    by first [lookups | unfold load; by simplify_map_eq].
  rewrite mesh_3_75km_columns, !run_assign, run_expr.
  rewrite (load_num_bound _ "time_step" (Int 20)) by lookups.
  rewrite (load_num_bound _ "grid_columns" (Int 41943042)) by lookups.
  rewrite (load_num_bound _ "vertical_levels" (Int 127)) by lookups.
  rewrite (load_num_bound _ "simulation_length" (Int 365)) by lookups.
  rewrite (load_num_bound _ "core_hours_per_time_step_per_grid_point"
             (Float lit_2_5639208763925117e_09)) by lookups.
  step.
  eexists. split; reflexivity.
Qed.

(** Cell 4 where [grid_columns] is not bound: it stops at the first
    product, after its four literals. *)
Lemma cell4_runs_unbound (g : namespace) :
  g !! "grid_columns" = None →
  cell4 g
  = (<["outputs_per_day_3d" := VNum (Int 8)]>
       (<["outputs_per_day_2d" := VNum (Int 24)]>
          (<["nvars_3d" := VNum (Int 9)]>
             (<["nvars_2d" := VNum (Int 15)]> g))),
     Raise (NameError "grid_columns")).
Proof.
  intros HG. unfold cell4. rewrite !run_assign, run_expr.
  rewrite (load_num_bound _ "nvars_2d" (Int 15)) by lookups. step.
  rewrite (load_num_unbound _ "grid_columns") by lookups.
  reflexivity.
Qed.

(** Cell 4 where the three globals it reads are numbers. *)
Lemma cell4_runs (g : namespace) (G V L : number) :
  g !! "grid_columns" = Some (VNum G) →
  g !! "vertical_levels" = Some (VNum V) →
  g !! "simulation_length" = Some (VNum L) →
  cell4 g
  = (<["storage_3d" := VNum (storage_3d (Int 9) G V L (Int 8))]>
       (<["storage_2d" := VNum (storage_2d (Int 15) G L (Int 24))]>
          (<["outputs_per_day_3d" := VNum (Int 8)]>
             (<["outputs_per_day_2d" := VNum (Int 24)]>
                (<["nvars_3d" := VNum (Int 9)]>
                   (<["nvars_2d" := VNum (Int 15)]> g))))),
     Ok (storage_estimate (Int 15) (Int 9) (Int 24) (Int 8) G V L)).
Proof.
  intros HG HV HL. unfold cell4.
  rewrite !run_assign, run_expr.
  rewrite (load_num_bound _ "nvars_2d" (Int 15)) by lookups.
  rewrite (load_num_bound _ "grid_columns" G) by lookups.
  rewrite (load_num_bound _ "simulation_length" L) by lookups.
  rewrite (load_num_bound _ "outputs_per_day_2d" (Int 24)) by lookups.
  step. rewrite run_assign, run_expr.
  rewrite (load_num_bound _ "nvars_3d" (Int 9)) by lookups.
  rewrite (load_num_bound _ "grid_columns" G) by lookups.
  rewrite (load_num_bound _ "vertical_levels" V) by lookups.
  rewrite (load_num_bound _ "simulation_length" L) by lookups.
  rewrite (load_num_bound _ "outputs_per_day_3d" (Int 8)) by lookups.
  step. rewrite run_assign. unfold expr.
  rewrite (load_num_bound _ "storage_2d" _) by lookups.
  rewrite (load_num_bound _ "storage_3d" _) by lookups.
  reflexivity.
Qed.

Lemma cell4_keeps_grid_columns : keeps "grid_columns" cell4.
Proof. unfold cell4. keeps_tac. Qed.

Lemma cell4_keeps_vertical_levels : keeps "vertical_levels" cell4.
Proof. unfold cell4. keeps_tac. Qed.

Lemma cell4_keeps_simulation_length : keeps "simulation_length" cell4.
Proof. unfold cell4. keeps_tac. Qed.

(** In every namespace the cells can produce, [mesh_dict] is unbound or the
    table, and the grid globals are all unbound or hold the 3.75 km mesh. *)
Lemma reachable_state (g : namespace) :
  reachable g →
  (g !! "mesh_dict" = None ∨ g !! "mesh_dict" = Some (VDict mesh_dict))
  ∧ grid_state g.
Proof.
  induction 1 as [|c g Hg [Hm Hs]].
  - split; [left|left]; rewrite ?lookup_empty; auto.
  - destruct c; cbn [run].
    + rewrite cell2_runs. cbn [fst]. split; [right|right].
      * by apply lookup_union_Some_l.
      * repeat split; [| |left]; by apply lookup_union_Some_l.
    + destruct Hm as [Hm|Hm].
      * rewrite (cell3_runs_unbound g Hm). cbn [fst].
        split; [left; by simplify_map_eq|].
        unfold grid_state in *. by simplify_map_eq.
      * destruct (cell3_runs_table g Hm) as (r & -> & _). cbn [fst].
        split; [right; by simplify_map_eq|].
        right. repeat split; [| |right]; by simplify_map_eq.
    + split.
      * by rewrite cell4_keeps_mesh_dict.
      * unfold grid_state.
        by rewrite cell4_keeps_grid_columns, cell4_keeps_vertical_levels,
          cell4_keeps_simulation_length.
Qed.

(** ** The efficiency function and [calculate_core_hours] *)















(** ** The storage expressions and the mesh table *)

(** X8.  A 3D variable costs as much as [vertical_levels] 2D variables
    written at the same frequency: the 3D bit count is the 2D bit count
    times the number of levels, and so are the terabyte figures. *)
Theorem storage_3d_is_levels_times_2d (v o nc nv d v' o' : number) :
  val (storage_3d v nc nv d o) == val nv * val (storage_2d v nc d o)
  ∧ val (storage_3d_TB (storage_estimate v' v o' o nc nv d))
    == val nv * val (storage_2d_TB (storage_estimate v v' o o' nc nv d)).
Proof.
  unfold storage_estimate, report.
  cbn [storage_2d_TB storage_3d_TB].
  unfold storage_2d, storage_3d, tb_per_bit.
  split; vals; ring.
Qed.

(** X9.  For non-negative inputs no storage figure is negative, and the
    total is at least each of its two terms. *)
Theorem storage_estimate_nonnegative (v2 v3 o2 o3 nc nv d : number) :
  0 <= val v2 → 0 <= val v3 → 0 <= val o2 → 0 <= val o3 →
  0 <= val nc → 0 <= val nv → 0 <= val d →
  let r := storage_estimate v2 v3 o2 o3 nc nv d in
  0 <= val (storage_2d_TB r)
  ∧ 0 <= val (storage_3d_TB r)
  ∧ val (storage_2d_TB r) <= val (total_storage_TB r)
  ∧ val (storage_3d_TB r) <= val (total_storage_TB r).
Proof.
  intros Hv2 Hv3 Ho2 Ho3 Hnc Hnv Hd. cbn zeta.
  unfold storage_estimate, report.
  cbn [storage_2d_TB storage_3d_TB total_storage_TB].
  set (s2 := storage_2d v2 nc d o2). set (s3 := storage_3d v3 nc nv d o3).
  assert (H2 : 0 <= val (mul s2 tb_per_bit)).
  { subst s2. unfold storage_2d, tb_per_bit. vals.
    repeat apply Qmult_nonneg; try assumption; discriminate. }
  assert (H3 : 0 <= val (mul s3 tb_per_bit)).
  { subst s3. unfold storage_3d, tb_per_bit. vals.
    repeat apply Qmult_nonneg; try assumption; discriminate. }
  repeat split; try assumption; rewrite val_add.
  - rewrite <- (Qplus_0_r (val (mul s2 tb_per_bit))) at 1.
    apply Qplus_le_r. exact H3.
  - rewrite <- (Qplus_0_l (val (mul s3 tb_per_bit))) at 1.
    apply Qplus_le_l. exact H2.
Qed.

Lemma storage_estimate_nonnegative_witness :
  let r := storage_estimate (Int 15) (Int 0) (Int 24) (Int 8)
             (Int 41943042) (Int 127) (Float (5 # 10)) in
  0 <= val (storage_2d_TB r)
  ∧ 0 <= val (storage_3d_TB r)
  ∧ val (storage_2d_TB r) <= val (total_storage_TB r)
  ∧ val (storage_3d_TB r) <= val (total_storage_TB r).
Proof.
  apply (storage_estimate_nonnegative (Int 15) (Int 0) (Int 24) (Int 8)
           (Int 41943042) (Int 127) (Float (5 # 10)));
    discriminate.
Defined.

(** X10.  Every list stored in [mesh_dict] has exactly two elements: indices
    0 and 1 return the spacing and the [int] column count, and any larger
    index raises [IndexError]. *)
Theorem mesh_entry_indices (k : string) (v : list number) :
  mesh_dict !! k = Some v →
  (∃ dx n, index v 0 = Ok dx ∧ index v 1 = Ok (Int n))
  ∧ ∀ i, (2 ≤ i)%nat → index v i = Raise IndexError.
Proof.
  intros Hv. apply mesh_dict_lookup in Hv. unfold mesh_items in Hv.
  repeat (apply elem_of_cons in Hv as [Hv|Hv];
          [injection Hv as -> ->;
           split; [eexists _, _; split; reflexivity|];
           intros [|[|i]] Hi; [lia|lia|reflexivity]|]).
  by apply elem_of_nil in Hv.
Qed.

Lemma mesh_entry_indices_witness :
  (∃ dx n, index [Int 15; Int 2621442] 0 = Ok dx
           ∧ index [Int 15; Int 2621442] 1 = Ok (Int n))
  ∧ ∀ i, (2 ≤ i)%nat → index [Int 15; Int 2621442] i = Raise IndexError.
Proof.
  apply (mesh_entry_indices "15km"). reflexivity.
Defined.

(** ** The cells *)

(** X11.  Cell 2 is self-contained: in any namespace it completes, and the
    namespace afterwards is the one it builds in a fresh kernel laid over the
    old one; running it a second time changes nothing. *)
Theorem cell2_self_contained (g : namespace) :
  cell2 g = (after_cell2 ∪ g, Ok tt)
  ∧ run Cell2 (run Cell2 g) = run Cell2 g.
Proof.
  split; [apply cell2_runs|].
  cbn [run]. rewrite !cell2_runs. cbn [fst].
  by rewrite (assoc_L (∪)), (idemp_L (∪)).
Qed.



(** X13.  Cell 3 in a namespace where [mesh_dict] is the table completes,
    whatever else is bound: it rebinds [dx] to 3.75, the grid globals to the
    3.75 km mesh and 365 days, and binds [total_core_hours] to
    [1576800 * 5326766334 * 2.5639208763925117e-09], which is 21535000 to
    within [1e-8].  The value cell 2 computed is not read. *)
Theorem cell3_with_mesh_dict (g : namespace) :
  g !! "mesh_dict" = Some (VDict mesh_dict) →
  snd (cell3 g) = Ok tt
  ∧ ∃ r,
      run Cell3 g
      = <["total_core_hours" := VNum r]>
          (<["core_hours_per_time_step_per_grid_point"
               := VNum (Float lit_2_5639208763925117e_09)]>
             (<["simulation_length" := VNum (Int 365)]>
                (<["vertical_levels" := VNum (Int 127)]>
                   (<["grid_columns" := VNum (Int 41943042)]>
                      (<["dx" := VNum (Float (375 # 100))]>
                         (<["time_step" := VNum (Int 20)]>
                            (<["mesh" := VStr "3.75km"]> g)))))))
      ∧ val r == 1576800 * 5326766334 * lit_2_5639208763925117e_09
      ∧ Qabs (val r - 21535000) < 1 # 100000000.
Proof.
  intros Hd. cbn [run].
  destruct (cell3_runs_table g Hd) as (r & -> & Hr). cbn [fst snd].
  split; [reflexivity|]. exists r. split; [reflexivity|].
  split; rewrite Hr; reflexivity.
Qed.

Lemma cell3_with_mesh_dict_witness :
  snd (cell3 after_cell2) = Ok tt
  ∧ ∃ r, run Cell3 after_cell2 !! "total_core_hours" = Some (VNum r)
         ∧ Qabs (val r - 21535000) < 1 # 100000000.
Proof.
  destruct (cell3_with_mesh_dict after_cell2) as (Hs & r & Hg & _ & Hr);
    [vm_compute; reflexivity|].
  split; [exact Hs|]. exists r. split; [|exact Hr].
  rewrite Hg. apply lookup_insert_eq.
Defined.



(** X15.  Whatever cells have run, in whatever order and however often, the
    globals [grid_columns], [vertical_levels] and [simulation_length] are
    either all unbound or hold 41943042, 127 and one of 4 and 365. *)
Theorem reachable_grid_state (g : namespace) :
  reachable g → grid_state g.
Proof. intros Hg. apply (reachable_state g Hg). Qed.

Lemma reachable_grid_state_witness :
  grid_state (run Cell2 (run Cell4 (run Cell3 ∅))).
Proof.
  apply reachable_grid_state. repeat constructor.
Defined.




